(** * Local RAG with FastAPI: a shallow embedding of [rag_engine.py] and [main.py]

    The engine ([LocalRAGSystem], [OllamaLLM]) and the HTTP layer
    ([main.py]) are translated function by function.  The collaborators
    the code calls through library objects (the Chroma vector store, the
    Ollama HTTP API, the document loaders) are modelled by their observable
    answers: a query answer of the store, the body or failure of a
    [requests.post], the lines of a streamed response.

    Python strings are [string]s; Python dicts used as maps are stdpp
    [gmap]s; the JSON objects the stream exchanges are records with one
    optional field per key, so that [key in obj] is [is_Some]. *)

From Stdlib Require Import Ascii ZArith Sorted.
From stdpp Require Import base list gmap strings pretty.

Open Scope string_scope.

(** ** Strings *)

Definition char (n : nat) : string := String (ascii_of_nat n) EmptyString.
Definition nl : string := char 10.
Definition dq : string := char 34.

(** Python's truthiness of a string: [if s:]. *)
Definition truthy (s : string) : bool :=
  match s with EmptyString => false | _ => true end.

(** [str.isspace] on one ASCII character: space, \t \n \v \f \r and the
    separators \x1c..\x1f. *)
Definition py_isspace (c : ascii) : bool :=
  let n := nat_of_ascii c in
  (n =? 32)%nat || ((9 <=? n)%nat && (n <=? 13)%nat)
  || ((28 <=? n)%nat && (n <=? 31)%nat).

Fixpoint lstrip_chars (l : list ascii) : list ascii :=
  match l with
  | c :: t => if py_isspace c then lstrip_chars t else l
  | [] => []
  end.

(** [str.strip()] with no argument. *)
Definition py_strip (s : string) : string :=
  String.string_of_list_ascii
    (rev (lstrip_chars (rev (lstrip_chars (String.list_ascii_of_string s))))).

(** [s[:n]] *)
Definition py_prefix (n : nat) (s : string) : string := String.substring 0 n s.

(** [l[-n:]] for [n > 0] *)
Definition py_last {A} (n : nat) (l : list A) : list A :=
  drop (length l - n) l.

(** Python's [dict.get(k, default)] on the metadata dicts (string values). *)
Fixpoint meta_get (m : list (string * string)) (k d : string) : string :=
  match m with
  | [] => d
  | (k', v) :: t => if String.eqb k k' then v else meta_get t k d
  end.

(** ** Data model *)

(** Exceptions: a value, or the message of a raised exception. *)
Inductive outcome (A : Type) : Type :=
| Ok (a : A)
| Raise (msg : string).
Arguments Ok {A} a.
Arguments Raise {A} msg.

(** A langchain [Document]. *)
Record document := mk_document {
  page_content : string;
  metadata : list (string * string)
}.

(** The Chroma store, seen through [similarity_search_with_score(query, k=k)]:
    the hits with their distance (a float in the code; only its order
    matters here, so an integer stands for it). *)
Record vector_store := mk_vector_store {
  similarity_search_with_score : string -> nat -> outcome (list (document * Z))
}.

(** One element of the list [retrieve_relevant_docs] returns. *)
Record relevant_doc := mk_relevant_doc {
  rd_content : string;
  rd_metadata : list (string * string);
  relevance_score : Z;
  relevance_rank : nat
}.

(** One element of [sources]. *)
Record source := mk_source {
  content_preview : string;
  src_metadata : list (string * string);
  src_relevance_score : Z
}.

(** One [conversation_entry] of [conversation_store]. *)
Record turn := mk_turn {
  question : string;
  answer : string;
  sources : list source;
  timestamp : string
}.

(** ** OllamaLLM *)

(** One line of a streamed [/api/generate] response, as [iter_lines] gives it:
    an empty line, a line that is not JSON, or a JSON object with an optional
    ["response"] and a ["done"] flag ([chunk.get("done", False)]). *)
Inductive stream_line :=
| LineEmpty
| LineBadJson
| LineJson (response : option string) (done : bool).

(** The Ollama server, seen from [requests]: the non-streaming call gives the
    ["response"] of the JSON body or raises; the streaming call gives lines
    and then, possibly, raises (a failed [post], [raise_for_status] or a
    broken connection while iterating). *)
Record ollama := mk_ollama {
  api_generate : string -> outcome string;
  api_generate_lines : string -> list stream_line;
  api_generate_failure : string -> option string
}.

Definition error_text (e : string) : string := "Error generating response: " ++ e.

(** [OllamaLLM.generate]: the [except] turns a failure into a string. *)
Definition generate (llm : ollama) (prompt : string) : string :=
  match api_generate llm prompt with
  | Ok r => r
  | Raise e => error_text e
  end.

(** The [for line in response.iter_lines()] loop of [generate_stream],
    followed by its [except] clause when the iteration raised. *)
Fixpoint stream_loop (ls : list stream_line) (failure : option string) : list string :=
  match ls with
  | [] => match failure with Some e => [error_text e] | None => [] end
  | LineEmpty :: t => stream_loop t failure
  | LineBadJson :: t => stream_loop t failure
  | LineJson r d :: t =>
      ((match r with Some x => [x] | None => [] end)
       ++ (if d then [] else stream_loop t failure))%list
  end.

(** [OllamaLLM.generate_stream]: the fragments it yields, in order. *)
Definition generate_stream (llm : ollama) (prompt : string) : list string :=
  stream_loop (api_generate_lines llm prompt) (api_generate_failure llm prompt).

(** ** LocalRAGSystem.retrieve_relevant_docs *)

Fixpoint format_results (i : nat) (results : list (document * Z)) : list relevant_doc :=
  match results with
  | [] => []
  | (doc, score) :: t =>
      mk_relevant_doc (page_content doc) (metadata doc) score (i + 1)
        :: format_results (S i) t
  end.

Definition retrieve_relevant_docs (vs : option vector_store) (query : string) (k : nat)
    : outcome (list relevant_doc) :=
  match vs with
  | None => Ok []
  | Some s =>
      match similarity_search_with_score s query k with
      | Ok results => Ok (format_results 0 results)
      | Raise e => Raise e
      end
  end.

(** ** LocalRAGSystem.generate_answer / generate_answer_stream: the prompt

    Both methods build the same f-string; [build_prompt] is that string. *)

(** [sep.join(l)] *)
Fixpoint py_join (sep : string) (l : list string) : string :=
  match l with
  | [] => ""
  | [x] => x
  | x :: t => x ++ sep ++ py_join sep t
  end.

Definition render_doc (doc : relevant_doc) : string :=
  "[Document " ++ pretty (relevance_rank doc) ++ " from "
  ++ meta_get (rd_metadata doc) "filename" "unknown" ++ "]:" ++ nl ++ rd_content doc.

Definition context_block (context_docs : list relevant_doc) : string :=
  py_join (nl ++ nl) (map render_doc context_docs).

Definition render_turn (t : turn) : string :=
  "User: " ++ question t ++ nl ++ "Assistant: " ++ answer t ++ nl.

Definition history_text (conversation_history : list turn) : string :=
  match conversation_history with
  | [] => ""
  | _ => nl ++ nl ++ "Previous conversation:" ++ nl
         ++ String.concat "" (map render_turn (py_last 3 conversation_history))
  end.

Definition prompt_head : string :=
  "You are a helpful assistant. Answer the question using ONLY the information provided in the Context below." ++ nl
  ++ nl
  ++ "CRITICAL RULES:" ++ nl
  ++ "1. Use ONLY information from the Context documents below" ++ nl
  ++ "2. If the answer is not in the Context, say " ++ dq
  ++ "I don't have that information in the provided documents" ++ dq ++ nl
  ++ "3. Do NOT use your general knowledge" ++ nl
  ++ "4. Do NOT make up information" ++ nl
  ++ "5. Cite the document source when possible" ++ nl
  ++ nl
  ++ "Context from uploaded documents:" ++ nl.

Definition prompt_tail (query : string) : string :=
  nl ++ nl ++ "Question: " ++ query ++ nl ++ nl
  ++ "Answer (based ONLY on Context above):".

Definition build_prompt (query : string) (context_docs : list relevant_doc)
    (conversation_history : list turn) : string :=
  prompt_head ++ context_block context_docs ++ nl
  ++ history_text conversation_history ++ prompt_tail query.

Definition generate_answer (llm : ollama) (query : string)
    (context_docs : list relevant_doc) (conversation_history : list turn) : string :=
  generate llm (build_prompt query context_docs conversation_history).

Definition generate_answer_stream (llm : ollama) (query : string)
    (context_docs : list relevant_doc) (conversation_history : list turn) : list string :=
  generate_stream llm (build_prompt query context_docs conversation_history).

(** ** LocalRAGSystem.ask *)

Definition format_source (doc : relevant_doc) : source :=
  mk_source (py_prefix 200 (rd_content doc) ++ "...") (rd_metadata doc) (relevance_score doc).

Definition format_sources (docs : list relevant_doc) : list source :=
  map format_source docs.

Definition not_initialized_msg : string :=
  "System not initialized. Please load documents first.".

Definition no_info_answer : string :=
  "I couldn't find any relevant information in the documents.".

(** The dict [ask] returns: [{"error", "answer": None}] or
    [{"question", "answer", "sources"}]. *)
Inductive ask_result :=
| AskError (error : string)
| AskAnswer (question answer : string) (sources : list source).

(** [ask] together with the prompts it hands to [OllamaLLM.generate], in
    call order: the result may be an exception (the store's query raised). *)
Definition ask (vs : option vector_store) (llm : ollama) (query : string)
    (conversation_history : list turn) : outcome ask_result * list string :=
  match vs with
  | None => (Ok (AskError not_initialized_msg), [])
  | Some _ =>
      match retrieve_relevant_docs vs query 10 with
      | Raise e => (Raise e, [])
      | Ok [] => (Ok (AskAnswer query no_info_answer []), [])
      | Ok relevant_docs =>
          let p := build_prompt query relevant_docs conversation_history in
          let a := generate_answer llm query relevant_docs conversation_history in
          (Ok (AskAnswer query (py_strip a) (format_sources relevant_docs)), [p])
      end
  end.

(** ** LocalRAGSystem.ask_stream *)

(** A JSON object of the stream, one optional field per key it may carry. *)
Record event := mk_event {
  ev_question : option string;
  ev_answer : option string;
  ev_sources : option (list source);
  ev_answer_chunk : option string;
  ev_error : option string;
  ev_done : option bool
}.

Definition empty_event : event := mk_event None None None None None None.

(** [{"error": "System not initialized"}] *)
Definition not_initialized_event : event :=
  mk_event None None None None (Some "System not initialized") None.

Definition no_info_stream_answer : string :=
  "I couldn't find any relevant information.".

(** [{"question", "answer", "sources": [], "done": True}] *)
Definition no_info_event (query : string) : event :=
  mk_event (Some query) (Some no_info_stream_answer) (Some []) None None (Some true).

(** [{"question", "sources", "answer_chunk": "", "done": False}] *)
Definition sources_event (query : string) (srcs : list source) : event :=
  mk_event (Some query) None (Some srcs) (Some "") None (Some false).

(** [{"answer_chunk": chunk, "done": False}] *)
Definition chunk_event (chunk : string) : event :=
  mk_event None None None (Some chunk) None (Some false).

(** [{"done": True}] *)
Definition done_event : event :=
  mk_event None None None None None (Some true).

(** [{"error": str(e), "done": True}] (the controller's [except]) *)
Definition error_event (e : string) : event :=
  mk_event None None None None (Some e) (Some true).

(** The events [ask_stream] yields, in order, and the exception it ends
    with, if any. *)
Definition ask_stream (vs : option vector_store) (llm : ollama) (query : string)
    (conversation_history : list turn) : list event * option string :=
  match vs with
  | None => ([not_initialized_event], None)
  | Some _ =>
      match retrieve_relevant_docs vs query 10 with
      | Raise e => ([], Some e)
      | Ok [] => ([no_info_event query], None)
      | Ok relevant_docs =>
          (([sources_event query (format_sources relevant_docs)]
            ++ map chunk_event
                 (generate_answer_stream llm query relevant_docs conversation_history)
            ++ [done_event])%list, None)
      end
  end.

(** ** main.py: the process state *)

(** The module-level globals of [main.py]: [system_ready], the engine's
    [rag_system.vectorstore], [conversation_store], and the names of the
    files in [./documents] ([os.listdir]). *)
Record app := mk_app {
  system_ready : bool;
  vectorstore : option vector_store;
  conversation_store : gmap string (list turn);
  documents : list string
}.

Definition set_store (st : app) (s : gmap string (list turn)) : app :=
  mk_app (system_ready st) (vectorstore st) s (documents st).

(** State at import time: [system_ready = False]; [LocalRAGSystem.__init__]
    sets [self.vectorstore = None]; the store is [{}]. *)
Definition initial_app (files : list string) : app :=
  mk_app false None ∅ files.

(** [request.session_id or str(uuid.uuid4())]: [fresh] is the new uuid. *)
Definition resolve_session (req_sid : option string) (fresh : string) : string :=
  match req_sid with
  | Some s => if truthy s then s else fresh
  | None => fresh
  end.

(** [conversation_store.get(session_id, [])] *)
Definition store_get (store : gmap string (list turn)) (sid : string) : list turn :=
  default [] (store !! sid).

(** [if session_id not in conversation_store: conversation_store[session_id] = []]
    followed by [conversation_store[session_id].append(entry)]. *)
Definition append_entry (store : gmap string (list turn)) (sid : string) (entry : turn)
    : gmap string (list turn) :=
  <[sid := (store_get store sid ++ [entry])%list]> store.

Definition not_ready_detail : string :=
  "System not initialized. Please call POST /initialize first.".

(** ** POST /ask *)

Inductive answer_response :=
| AnswerResponse (question answer : string) (sources : list source) (session_id : string)
| AskHttpError (status_code : nat) (detail : string).

(** [ask_question]: the response, the new state and the prompts sent to the
    Generation Service; [fresh] is the uuid drawn, [now] the timestamp. *)
Definition ask_question (st : app) (llm : ollama) (q : string) (req_sid : option string)
    (fresh now : string) : answer_response * app * list string :=
  if negb (system_ready st) then (AskHttpError 400 not_ready_detail, st, [])
  else
    let session_id := resolve_session req_sid fresh in
    let history := store_get (conversation_store st) session_id in
    match ask (vectorstore st) llm q history with
    | (Raise e, calls) =>
        (AskHttpError 500 ("Error processing question: " ++ e), st, calls)
    | (Ok (AskError e), calls) => (AskHttpError 400 e, st, calls)
    | (Ok (AskAnswer q' a srcs), calls) =>
        let entry := mk_turn q' a srcs now in
        (AnswerResponse q' a srcs session_id,
         set_store st (append_entry (conversation_store st) session_id entry), calls)
    end.

(** ** POST /ask/stream *)

(** The inner generator [generate()] of [ask_question_stream]: it forwards
    each event of [ask_stream], accumulating [full_answer] and [sources],
    commits at the first event with [done] and stops there; an exception of
    [ask_stream] becomes a final error event. *)
Fixpoint stream_controller (q session_id now : string) (evs : list event)
    (exn : option string) (full_answer : string) (srcs : list source)
    (store : gmap string (list turn)) : list event * gmap string (list turn) :=
  match evs with
  | [] =>
      match exn with
      | Some e => ([error_event e], store)
      | None => ([], store)
      end
  | ev :: t =>
      let srcs' := match ev_sources ev with Some s => s | None => srcs end in
      let full' := match ev_answer_chunk ev with
                   | Some c => if truthy c then full_answer ++ c else full_answer
                   | None => full_answer
                   end in
      if default false (ev_done ev) then
        ([ev], if truthy full' && truthy session_id
               then append_entry store session_id (mk_turn q full' srcs' now)
               else store)
      else
        let '(out, store') := stream_controller q session_id now t exn full' srcs' store in
        (ev :: out, store')
  end.

Inductive stream_response :=
| StreamingResponse (events : list event) (x_session_id : string)
| StreamHttpError (status_code : nat) (detail : string).

(** [ask_question_stream], with the generator run to its end. *)
Definition ask_question_stream (st : app) (llm : ollama) (q : string)
    (req_sid : option string) (fresh now : string) : stream_response * app :=
  if negb (system_ready st) then (StreamHttpError 400 not_ready_detail, st)
  else
    let session_id := resolve_session req_sid fresh in
    let history := store_get (conversation_store st) session_id in
    let '(evs, exn) := ask_stream (vectorstore st) llm q history in
    let '(out, store') :=
      stream_controller q session_id now evs exn "" [] (conversation_store st) in
    (StreamingResponse out session_id, set_store st store').

(** ** Conversation endpoints *)

Inductive history_response :=
| ConversationHistoryResponse (session_id : string) (conversation_count : nat)
    (conversations : list turn)
| HistoryHttpError (status_code : nat) (detail : string).

Definition session_not_found (sid : string) : string :=
  "Session '" ++ sid ++ "' not found".

(** [GET /conversations/{session_id}] *)
Definition get_conversation_history (st : app) (sid : string) : history_response :=
  match conversation_store st !! sid with
  | None => HistoryHttpError 404 (session_not_found sid)
  | Some history => ConversationHistoryResponse sid (length history) history
  end.

Inductive clear_response :=
| Cleared (session_id : string)
| ClearHttpError (status_code : nat) (detail : string).

(** [DELETE /conversations/{session_id}] *)
Definition clear_conversation_history (st : app) (sid : string) : clear_response * app :=
  match conversation_store st !! sid with
  | None => (ClearHttpError 404 (session_not_found sid), st)
  | Some _ => (Cleared sid, set_store st (delete sid (conversation_store st)))
  end.

(** [DELETE /conversations]: the count removed. *)
Definition clear_all_conversations (st : app) : nat * app :=
  (size (conversation_store st), set_store st ∅).

(** ** POST /initialize and DELETE /reset *)

(** [LocalRAGSystem.initialize_from_documents] over the files of
    [./documents]: [load_documents] stands for the format loaders of
    [load_documents], [build_store] for [split_documents] followed by
    [Chroma.from_documents] (which may raise).  On success the method
    returns a non-empty dict, truthy for [initialize_system]. *)
Definition initialize_from_documents (load_documents : list string -> list document)
    (build_store : list document -> outcome vector_store) (files : list string)
    : outcome vector_store :=
  match load_documents files with
  | [] => Raise "No documents found to process! Please upload documents first."
  | docs => build_store docs
  end.

Inductive init_response :=
| Initialized (documents_processed : nat)
| InitHttpError (status_code : nat) (detail : string).

(** [initialize_system]: [self.vectorstore] is assigned only when
    [Chroma.from_documents] returns; the [except] clears [system_ready]. *)
Definition initialize_system (st : app) (load_documents : list string -> list document)
    (build_store : list document -> outcome vector_store) : init_response * app :=
  match documents st with
  | [] => (InitHttpError 400 "No documents found. Please upload documents first using POST /upload", st)
  | files =>
      match initialize_from_documents load_documents build_store files with
      | Ok s =>
          (Initialized (length files),
           mk_app true (Some s) (conversation_store st) files)
      | Raise e =>
          (InitHttpError 500 ("Error during initialization: " ++ e),
           mk_app false (vectorstore st) (conversation_store st) files)
      end
  end.

Inductive reset_response :=
| ResetDone
| ResetHttpError (status_code : nat) (detail : string).

(** [reset_system]: [fs] is the result of the [shutil.rmtree]/[os.makedirs]
    calls; when one raises, [remaining] are the files left in [./documents]
    and [system_ready] is not touched.  [rag_system.vectorstore] is never
    reset. *)
Definition reset_system (st : app) (fs : outcome unit) (remaining : list string)
    : reset_response * app :=
  match fs with
  | Ok _ => (ResetDone, mk_app false (vectorstore st) (conversation_store st) [])
  | Raise e =>
      (ResetHttpError 500 ("Error resetting system: " ++ e),
       mk_app (system_ready st) (vectorstore st) (conversation_store st) remaining)
  end.

(** ** The endpoints as a transition system

    Each request runs to completion ([initialize_system] and [reset_system]
    never [await]).  [POST /upload] and [DELETE /documents/{filename}] only
    change the files of [./documents]: [step_files] lets them change in any
    way.  The GET endpoints change nothing. *)
Inductive step : app -> app -> Prop :=
| step_initialize st load_documents build_store :
    step st (initialize_system st load_documents build_store).2
| step_reset st fs remaining :
    step st (reset_system st fs remaining).2
| step_files st files :
    step st (mk_app (system_ready st) (vectorstore st) (conversation_store st) files)
| step_ask st llm q req_sid fresh now :
    step st (ask_question st llm q req_sid fresh now).1.2
| step_ask_stream st llm q req_sid fresh now :
    step st (ask_question_stream st llm q req_sid fresh now).2
| step_clear st sid :
    step st (clear_conversation_history st sid).2
| step_clear_all st :
    step st (clear_all_conversations st).2.

Definition reachable (st : app) : Prop :=
  exists files, rtc step (initial_app files) st.

(** ** GET /conversations *)

(** One element of [sessions] in [list_all_sessions]. *)
Record session_summary := mk_session_summary {
  summary_session_id : string;
  conversation_count : nat;
  last_updated : string;
  first_question : string
}.

(** The summary of one [(session_id, history)] item; [if history:] skips
    the empty ones. *)
Definition summarize (item : string * list turn) : option session_summary :=
  match item with
  | (_, []) => None
  | (sid, (h :: _) as history) =>
      Some (mk_session_summary sid (length history) (timestamp (List.last history h))
              (py_prefix 50 (question h) ++ "..."))
  end.

(** [list_all_sessions]: [active_sessions] and [sessions].  Python iterates
    the dict in insertion order; [map_to_list] has its own order, so only
    the count and the membership of [sessions] are used below. *)
Definition list_all_sessions (st : app) : nat * list session_summary :=
  let sessions := omap summarize (map_to_list (conversation_store st)) in
  (length sessions, sessions).

(** ** GET /health *)

Record status_response := mk_status_response {
  status : string;
  status_system_ready : bool;
  documents_count : nat
}.

Definition health_check (st : app) : status_response :=
  mk_status_response (if system_ready st then "ready" else "not_initialized")
    (system_ready st) (length (documents st)).

(** ** File names: [os.path.splitext] and [str.lower] *)

(** Scans a reversed path for its last ['.'], stopping at ['/']: the
    reversed stem and the extension, dot included. *)
Fixpoint split_last_dot (r acc : list ascii) : option (list ascii * list ascii) :=
  match r with
  | [] => None
  | c :: t =>
      if Ascii.eqb c "." then Some (t, c :: acc)
      else if Ascii.eqb c "/" then None
      else split_last_dot t (c :: acc)
  end.

(** Whether the last component of a reversed stem has a character other
    than ['.'] (the leading dots of a name do not start an extension). *)
Fixpoint has_non_dot (r : list ascii) : bool :=
  match r with
  | [] => false
  | c :: t =>
      if Ascii.eqb c "/" then false
      else if Ascii.eqb c "." then has_non_dot t
      else true
  end.

(** [os.path.splitext(p)[1]] on a POSIX path. *)
Definition splitext_ext (p : string) : string :=
  match split_last_dot (rev (String.list_ascii_of_string p)) [] with
  | Some (stem_rev, ext) =>
      if has_non_dot stem_rev then String.string_of_list_ascii ext else ""
  | None => ""
  end.

(** [str.lower] on ASCII. *)
Definition lower_char (c : ascii) : ascii :=
  let n := nat_of_ascii c in
  if (65 <=? n)%nat && (n <=? 90)%nat then ascii_of_nat (n + 32) else c.

Definition py_lower (s : string) : string :=
  String.string_of_list_ascii (map lower_char (String.list_ascii_of_string s)).

(** ** POST /upload: the extension check *)

Definition allowed_extensions : list string :=
  [".pdf"; ".txt"; ".docx"; ".xlsx"; ".xls"; ".csv"; ".md"; ".html"; ".pptx"; ".ppt"].

(** [file_ext not in allowed_extensions] is false. *)
Definition upload_accepts (filename : string) : bool :=
  existsb (String.eqb (py_lower (splitext_ext filename))) allowed_extensions.

(** ** LocalRAGSystem.load_documents *)

Inductive loader_kind :=
| PyPDF | Text | Docx2txt | UnstructuredExcel | CSVLoad | UnstructuredMarkdown
| UnstructuredHTML | UnstructuredPowerPoint.

(** The [if ext == ...] chain: the loader for a lowered extension, [None]
    for the [Unsupported] branch. *)
Definition loader_for (ext : string) : option loader_kind :=
  if String.eqb ext ".pdf" then Some PyPDF
  else if String.eqb ext ".txt" then Some Text
  else if String.eqb ext ".docx" then Some Docx2txt
  else if String.eqb ext ".xlsx" || String.eqb ext ".xls" then Some UnstructuredExcel
  else if String.eqb ext ".csv" then Some CSVLoad
  else if String.eqb ext ".md" then Some UnstructuredMarkdown
  else if String.eqb ext ".html" || String.eqb ext ".htm" then Some UnstructuredHTML
  else if String.eqb ext ".pptx" || String.eqb ext ".ppt" then Some UnstructuredPowerPoint
  else None.

(** [d[k] = v] on a metadata dict: replaces the value of [k] in place, or
    adds [k] at the end. *)
Fixpoint meta_set (m : list (string * string)) (k v : string) : list (string * string) :=
  match m with
  | [] => [(k, v)]
  | (k', v') :: t => if String.eqb k k' then (k', v) :: t else (k', v') :: meta_set t k v
  end.

(** One file through its loader: [load_with kind filename] is
    [loader.load()]; for Excel, a failure falls back to [pandas.read_excel]
    ([read_excel filename] is [df.to_string()]), which may raise too. *)
Definition load_file (load_with : loader_kind -> string -> outcome (list document))
    (read_excel : string -> outcome string) (kind : loader_kind) (filename : string)
    : outcome (list document) :=
  match kind, load_with kind filename with
  | UnstructuredExcel, Raise _ =>
      match read_excel filename with
      | Ok content => Ok [mk_document content [("source", filename)]]
      | Raise e => Raise e
      end
  | _, r => r
  end.

Definition starts_with_dot (s : string) : bool :=
  match s with String c _ => Ascii.eqb c "." | EmptyString => false end.

(** [load_documents] over the entries of [os.listdir]: each is a name and
    whether [os.path.isfile] holds.  Hidden names, non-files, unsupported
    extensions and files whose loading raises contribute nothing; every
    loaded document gets [metadata['filename'] = filename]. *)
Definition load_documents (load_with : loader_kind -> string -> outcome (list document))
    (read_excel : string -> outcome string) (entries : list (string * bool))
    : list document :=
  flat_map (fun '(filename, is_file) =>
    if starts_with_dot filename then []
    else if negb is_file then []
    else match loader_for (py_lower (splitext_ext filename)) with
         | None => []
         | Some kind =>
             match load_file load_with read_excel kind filename with
             | Ok docs =>
                 map (fun d => mk_document (page_content d)
                                 (meta_set (metadata d) "filename" filename)) docs
             | Raise _ => []
             end
         end) entries.

(** ** streamlit_chat_ui.py: the reader of [/ask/stream]

    The chat UI parses each ["data: "] line back into the event the server
    sent, keeps non-empty [sources], accumulates non-empty [answer_chunk]s
    into [full_answer] and stops at [done]. *)
Fixpoint client_read (evs : list event) (full_answer : string) (srcs : list source)
    : string * list source :=
  match evs with
  | [] => (full_answer, srcs)
  | ev :: t =>
      let srcs' := match ev_sources ev with Some ((_ :: _) as s) => s | _ => srcs end in
      let full' := match ev_answer_chunk ev with
                   | Some c => if truthy c then full_answer ++ c else full_answer
                   | None => full_answer
                   end in
      if default false (ev_done ev) then (full', srcs')
      else client_read t full' srcs'
  end.


(** The effect of one question request on the server state: the
    readiness, the vector store and the document folder are kept, and the
    ledger is either unchanged or has one more turn, for the given question,
    in the given session. *)
Definition appends_at_most_one (st st' : app) (sid q : string) : Prop :=
  system_ready st' = system_ready st /\ vectorstore st' = vectorstore st
  /\ documents st' = documents st
  /\ (conversation_store st' = conversation_store st
      \/ exists t, conversation_store st' = append_entry (conversation_store st) sid t
                   /\ question t = q).

(** ** Concrete inputs *)

Module Demo.

Definition sky_doc : document :=
  mk_document "The sky is blue." [("source", "sky.txt"); ("filename", "sky.txt")].

(** A store whose every query hits [sky_doc] at distance 1. *)
Definition sky_store : vector_store :=
  mk_vector_store (fun _ _ => Ok [(sky_doc, 1%Z)]).

(** A store with no hits. *)
Definition empty_store : vector_store :=
  mk_vector_store (fun _ _ => Ok []).

(** A ready process with one store and no conversations yet. *)
Definition ready_app (s : vector_store) : app :=
  mk_app true (Some s) ∅ ["sky.txt"].

(** An Ollama answering [text] in both modes, the stream in one line. *)
Definition echo_llm (text : string) : ollama :=
  mk_ollama (fun _ => Ok text) (fun _ => [LineJson (Some text) true]) (fun _ => None).

(** An Ollama whose stream breaks after one fragment, and whose
    non-streaming call fails. *)
Definition broken_llm : ollama :=
  mk_ollama (fun _ => Raise "connection refused")
    (fun _ => [LineJson (Some "The sky") false]) (fun _ => Some "connection reset").

End Demo.

(** ** Lemmas about the embedding *)

(** The Vector Store's k-nearest-neighbour contract: hits come nearest
    first (Chroma returns them by ascending distance). *)
Definition nearest_first (s : vector_store) : Prop :=
  forall q k hits, similarity_search_with_score s q k = Ok hits -> Sorted Z.le (map snd hits).

Lemma format_results_ranks (i : nat) (hits : list (document * Z)) :
  map relevance_rank (format_results i hits) = seq (S i) (length hits).
Proof.
  revert i; induction hits as [|[d sc] t IH]; intros i; simpl; [done|].
  rewrite Nat.add_1_r, IH. done.
Qed.

Lemma format_results_scores (i : nat) (hits : list (document * Z)) :
  map relevance_score (format_results i hits) = map snd hits.
Proof.
  revert i; induction hits as [|[d sc] t IH]; intros i; simpl; [done|].
  rewrite IH. done.
Qed.

Lemma format_results_length (i : nat) (hits : list (document * Z)) :
  length (format_results i hits) = length hits.
Proof.
  revert i; induction hits as [|[d sc] t IH]; intros i; simpl; [done|].
  rewrite IH. done.
Qed.

Lemma format_results_nil (i : nat) (hits : list (document * Z)) :
  format_results i hits = [] <-> hits = [].
Proof. destruct hits as [|[d sc] t]; simpl; split; done. Qed.

Lemma py_last_suffix {A} (n : nat) (l : list A) :
  (exists older, l = (older ++ py_last n l)%list) /\ length (py_last n l) = min n (length l).
Proof.
  unfold py_last. split.
  - exists (take (length l - n) l). by rewrite take_drop.
  - rewrite length_drop. lia.
Qed.

(** [ask_stream] and [ask] when the store answers the query with [hits]. *)
Lemma retrieve_some (s : vector_store) (q : string) (k : nat) (hits : list (document * Z)) :
  similarity_search_with_score s q k = Ok hits ->
  retrieve_relevant_docs (Some s) q k = Ok (format_results 0 hits).
Proof. intros H. simpl. by rewrite H. Qed.

(** ** C8: ranks and order of the retrieval *)

(** C8. [retrieve_relevant_docs] either propagates the store's exception or
    returns a list whose ranks are 1..k' in output order, whose scores are
    ascending (the order of a nearest-first store, kept as is), and which is
    empty exactly when no store is attached or the store has no hit. *)
Theorem retrieve_relevant_docs_ranked (vs : option vector_store) (q : string) (k : nat) :
  (forall s, vs = Some s -> nearest_first s) ->
  match retrieve_relevant_docs vs q k with
  | Ok docs =>
      map relevance_rank docs = seq 1 (length docs)
      /\ Sorted Z.le (map relevance_score docs)
      /\ (docs = [] <-> vs = None \/
           exists s, vs = Some s /\ similarity_search_with_score s q k = Ok [])
  | Raise e => exists s, vs = Some s /\ similarity_search_with_score s q k = Raise e
  end.
Proof.
  intros Hnf. destruct vs as [s|]; simpl.
  - destruct (similarity_search_with_score s q k) as [hits|e] eqn:Hq.
    + split; [|split].
      * rewrite format_results_ranks, format_results_length. done.
      * rewrite format_results_scores. by apply (Hnf s eq_refl q k).
      * rewrite format_results_nil. split.
        -- intros ->. right. eauto.
        -- intros [Hn|(s' & Hs' & Hq')]; [done|]. injection Hs' as <-.
           rewrite Hq in Hq'. by injection Hq'.
    + eauto.
  - split; [done|split; [constructor|]]. split; auto.
Qed.

(** ** C7: the history window of the prompt *)

(** C7. The composed prompt is the instructions, the context block, then the
    history text, then the question; the history text is empty for no
    history and otherwise renders [py_last 3] of the history, a suffix of
    at most 3 turns in stored order, as User/Assistant lines.  [/ask] feeds
    it the session's whole stored history. *)
Theorem prompt_history_window (q : string) (docs : list relevant_doc) (hist : list turn) :
  build_prompt q docs hist
    = prompt_head ++ context_block docs ++ nl ++ history_text hist ++ prompt_tail q
  /\ (hist = [] -> history_text hist = "")
  /\ (hist <> [] -> history_text hist =
        nl ++ nl ++ "Previous conversation:" ++ nl
        ++ String.concat "" (map render_turn (py_last 3 hist)))
  /\ (exists older, hist = (older ++ py_last 3 hist)%list)
  /\ length (py_last 3 hist) = min 3 (length hist)
  /\ (forall (st : app) llm req_sid fresh now s hits,
        system_ready st = true -> vectorstore st = Some s ->
        similarity_search_with_score s q 10 = Ok hits -> hits <> [] ->
        (ask_question st llm q req_sid fresh now).2
          = [build_prompt q (format_results 0 hits)
               (store_get (conversation_store st) (resolve_session req_sid fresh))]).
Proof.
  destruct (py_last_suffix 3 hist) as [Hsuf Hlen].
  split; [done|]. split; [by intros ->|]. split.
  { intros Hne. destruct hist; [done|]. done. }
  split; [done|]. split; [done|].
  intros st llm req_sid fresh now s hits Hr Hv Hq Hne.
  unfold ask_question. rewrite Hr. simpl. rewrite Hv. simpl. rewrite Hq.
  destruct hits as [|[d sc] t]; [done|]. done.
Qed.

(** ** The stream controller forwards events up to the first [done] *)

Lemma stream_controller_forward (q sid now : string) (pre : list event) (last : event)
    (exn : option string) (full : string) (srcs : list source)
    (store : gmap string (list turn)) :
  Forall (fun e => ev_done e = Some false) pre -> ev_done last = Some true ->
  (stream_controller q sid now (pre ++ [last])%list exn full srcs store).1
    = (pre ++ [last])%list.
Proof.
  intros Hpre Hl. revert full srcs.
  induction Hpre as [|e pre He Hpre IH]; intros full srcs; simpl.
  - rewrite Hl. done.
  - rewrite He. simpl.
    destruct (stream_controller _ _ _ (pre ++ [last])%list _ _ _ _) as [out st'] eqn:E.
    simpl. specialize (IH (match ev_answer_chunk e with
                           | Some c => if truthy c then full ++ c else full
                           | None => full end)
                          (match ev_sources e with Some s => s | None => srcs end)).
    rewrite E in IH. simpl in IH. by rewrite IH.
Qed.

Lemma chunk_events_not_done (frags : list string) :
  Forall (fun e => ev_done e = Some false) (map chunk_event frags).
Proof. induction frags as [|f t IH]; simpl; constructor; done. Qed.

(** [ask_stream] and [ask] on a non-empty retrieval. *)
Lemma ask_stream_nonempty (vs : option vector_store) (llm : ollama) (q : string)
    (hist : list turn) (docs : list relevant_doc) :
  retrieve_relevant_docs vs q 10 = Ok docs -> docs <> [] ->
  ask_stream vs llm q hist
  = ((sources_event q (format_sources docs)
        :: map chunk_event (generate_answer_stream llm q docs hist)
        ++ [done_event])%list, None).
Proof.
  intros Hr Hne. destruct vs as [s|].
  - unfold ask_stream. rewrite Hr. destruct docs; [done|]. done.
  - simpl in Hr. injection Hr as <-. done.
Qed.

Lemma ask_nonempty (vs : option vector_store) (llm : ollama) (q : string)
    (hist : list turn) (docs : list relevant_doc) :
  retrieve_relevant_docs vs q 10 = Ok docs -> docs <> [] ->
  ask vs llm q hist
  = (Ok (AskAnswer q (py_strip (generate_answer llm q docs hist)) (format_sources docs)),
     [build_prompt q docs hist]).
Proof.
  intros Hr Hne. destruct vs as [s|].
  - unfold ask. rewrite Hr. destruct docs; [done|]. done.
  - simpl in Hr. injection Hr as <-. done.
Qed.

(** ** C2: the order of the streamed events *)

(** C2. With a non-empty retrieval, [ask_stream] yields the sources event,
    then one [answer_chunk] event per fragment of [generate_stream] in the
    order they arrive, then [{"done": True}], and ends; the controller of
    [/ask/stream] forwards exactly these events. *)
Theorem ask_stream_event_order (vs : option vector_store) (llm : ollama) (q : string)
    (hist : list turn) (docs : list relevant_doc) :
  retrieve_relevant_docs vs q 10 = Ok docs -> docs <> [] ->
  let evs := (sources_event q (format_sources docs)
                :: map chunk_event (generate_answer_stream llm q docs hist)
                ++ [done_event])%list in
  ask_stream vs llm q hist = (evs, None)
  /\ (forall sid now store, (stream_controller q sid now evs None "" [] store).1 = evs).
Proof.
  intros Hr Hne evs. split.
  - by apply ask_stream_nonempty.
  - intros sid now store. unfold evs. rewrite app_comm_cons.
    apply stream_controller_forward; [|done].
    constructor; [done|]. apply chunk_events_not_done.
Qed.

(** ** String concatenation *)

Lemma str_app_nil_r (s : string) : s ++ "" = s.
Proof. induction s as [|c s IH]; [reflexivity|]. exact (f_equal (String c) IH). Qed.

Lemma str_app_assoc (s1 s2 s3 : string) : (s1 ++ s2) ++ s3 = s1 ++ (s2 ++ s3).
Proof. induction s1 as [|c s IH]; [reflexivity|]. exact (f_equal (String c) IH). Qed.

(** [String.concat ""] is the right fold of [String.append]. *)
Lemma concat_empty_fold (l : list string) :
  String.concat "" l = foldr String.append "" l.
Proof.
  induction l as [|x t IH]; [done|].
  destruct t as [|y t'].
  - simpl. symmetry. apply str_app_nil_r.
  - change (String.concat "" (x :: y :: t')) with (x ++ "" ++ String.concat "" (y :: t')).
    rewrite IH. done.
Qed.

Lemma concat_empty_app (l1 l2 : list string) :
  String.concat "" (l1 ++ l2)%list = String.concat "" l1 ++ String.concat "" l2.
Proof.
  rewrite !concat_empty_fold.
  induction l1 as [|x t IH]; simpl; [done|]. by rewrite IH, str_app_assoc.
Qed.

(** The text of a stream for a reader: its [answer_chunk] fields, in
    emission order, concatenated. *)
Definition concat_answer_chunks (evs : list event) : string :=
  String.concat "" (omap ev_answer_chunk evs).

Lemma omap_chunk_events (frags : list string) :
  omap ev_answer_chunk (map chunk_event frags ++ [done_event])%list = frags.
Proof. induction frags as [|f t IH]; [reflexivity|]. simpl. f_equal. exact IH. Qed.

Lemma concat_answer_chunks_stream (q : string) (srcs : list source) (frags : list string) :
  concat_answer_chunks
    (sources_event q srcs :: map chunk_event frags ++ [done_event])%list
  = String.concat "" frags.
Proof.
  unfold concat_answer_chunks.
  change (omap ev_answer_chunk (sources_event q srcs :: (map chunk_event frags ++ [done_event])%list))
    with ("" :: omap ev_answer_chunk (map chunk_event frags ++ [done_event])%list).
  rewrite omap_chunk_events, !concat_empty_fold. reflexivity.
Qed.

(** ** C3: streamed text against the atomic answer *)

(** C3 (as amended). When the Generation Service yields the same text in
    both modes, the atomic [ask] answers the [strip()] of the concatenated
    [answer_chunk] fragments of the stream for the same question, chunks and
    history (the stream itself is not stripped). *)
Theorem stream_concat_vs_atomic (vs : option vector_store) (llm : ollama) (q : string)
    (hist : list turn) (docs : list relevant_doc) :
  (forall p, String.concat "" (generate_stream llm p) = generate llm p) ->
  retrieve_relevant_docs vs q 10 = Ok docs -> docs <> [] ->
  exists evs, ask_stream vs llm q hist = (evs, None)
    /\ (ask vs llm q hist).1
       = Ok (AskAnswer q (py_strip (concat_answer_chunks evs)) (format_sources docs)).
Proof.
  intros Hsame Hr Hne.
  eexists. split; [by apply ask_stream_nonempty|].
  rewrite (ask_nonempty _ _ _ _ _ Hr Hne). simpl.
  rewrite concat_answer_chunks_stream. unfold generate_answer_stream, generate_answer.
  by rewrite Hsame.
Qed.

(** C3 counterexample: an answer with a leading space.  The Generation
    Service gives [" Blue."] in both modes; the stream's text is [" Blue."],
    the atomic answer is ["Blue."]. *)
Lemma stream_concat_vs_atomic_counterexample :
  (forall p, String.concat "" (generate_stream (Demo.echo_llm " Blue.") p)
             = generate (Demo.echo_llm " Blue.") p)
  /\ concat_answer_chunks
       (ask_stream (Some Demo.sky_store) (Demo.echo_llm " Blue.") "What color is the sky?" []).1
     = " Blue."
  /\ (ask (Some Demo.sky_store) (Demo.echo_llm " Blue.") "What color is the sky?" []).1
     = Ok (AskAnswer "What color is the sky?" "Blue."
             (format_sources (format_results 0 [(Demo.sky_doc, 1%Z)])))
  /\ " Blue." <> "Blue.".
Proof.
  split; [intros p; reflexivity|].
  split; [vm_compute; reflexivity|].
  split; [vm_compute; reflexivity|].
  discriminate.
Qed.

(** ** The ledger append *)

Lemma append_entry_get (store : gmap string (list turn)) (sid : string) (entry : turn) :
  store_get (append_entry store sid entry) sid = (store_get store sid ++ [entry])%list.
Proof. unfold append_entry, store_get at 1. by rewrite lookup_insert_eq. Qed.

Lemma append_entry_other (store : gmap string (list turn)) (sid sid' : string) (entry : turn) :
  sid' <> sid -> append_entry store sid entry !! sid' = store !! sid'.
Proof. intros Hne. unfold append_entry. by rewrite lookup_insert_ne. Qed.

Lemma set_store_same (st : app) : set_store st (conversation_store st) = st.
Proof. by destruct st. Qed.

(** ** C5: the atomic fallback answer *)

(** C5. On a ready process whose store has no hit for the question, [/ask]
    answers the fixed fallback with no sources, sends no prompt to the
    Generation Service, and appends exactly one turn with that answer to
    the session (the other sessions are untouched). *)
Theorem ask_no_hits_fallback (st : app) (llm : ollama) (q : string)
    (req_sid : option string) (fresh now : string) (s : vector_store) :
  system_ready st = true -> vectorstore st = Some s ->
  similarity_search_with_score s q 10 = Ok [] ->
  let sid := resolve_session req_sid fresh in
  let entry := mk_turn q no_info_answer [] now in
  ask_question st llm q req_sid fresh now
    = (AnswerResponse q no_info_answer [] sid,
       set_store st (append_entry (conversation_store st) sid entry), [])
  /\ store_get (append_entry (conversation_store st) sid entry) sid
     = (store_get (conversation_store st) sid ++ [entry])%list
  /\ (forall sid', sid' <> sid ->
        append_entry (conversation_store st) sid entry !! sid' = conversation_store st !! sid').
Proof.
  intros Hr Hv Hq sid entry. split; [|split].
  - unfold ask_question. rewrite Hr. simpl. unfold ask. rewrite Hv.
    rewrite (retrieve_some _ _ _ _ Hq). done.
  - apply append_entry_get.
  - intros sid' Hne. by apply append_entry_other.
Qed.

Lemma ask_no_hits_fallback_witness :
  (system_ready (Demo.ready_app Demo.empty_store) = true
   /\ vectorstore (Demo.ready_app Demo.empty_store) = Some Demo.empty_store
   /\ similarity_search_with_score Demo.empty_store "Who won in 1066?" 10 = Ok [])
  /\ ask_question (Demo.ready_app Demo.empty_store) Demo.broken_llm "Who won in 1066?"
       (Some "s1") "u" "t"
     = (AnswerResponse "Who won in 1066?" no_info_answer [] "s1",
        set_store (Demo.ready_app Demo.empty_store)
          (append_entry ∅ "s1" (mk_turn "Who won in 1066?" no_info_answer [] "t")), []).
Proof.
  split; [split; [reflexivity|split; reflexivity]|].
  apply (ask_no_hits_fallback (Demo.ready_app Demo.empty_store) Demo.broken_llm
           "Who won in 1066?" (Some "s1") "u" "t" Demo.empty_store);
    reflexivity.
Defined.

(** ** C6: the streaming fallback *)

(** C6 (code defect). On a ready process whose store has no hit, [/ask/stream]
    emits exactly the one fallback event, which carries [done = True], and
    ends; the fallback is under ["answer"], not ["answer_chunk"], so the
    controller's [full_answer] stays empty and no turn is committed: the
    state is unchanged. *)
Theorem ask_stream_no_hits_not_committed (st : app) (llm : ollama) (q : string)
    (req_sid : option string) (fresh now : string) (s : vector_store) :
  system_ready st = true -> vectorstore st = Some s ->
  similarity_search_with_score s q 10 = Ok [] ->
  ask_question_stream st llm q req_sid fresh now
    = (StreamingResponse [no_info_event q] (resolve_session req_sid fresh), st)
  /\ ev_done (no_info_event q) = Some true
  /\ ev_answer (no_info_event q) = Some no_info_stream_answer.
Proof.
  intros Hr Hv Hq. split; [|done].
  unfold ask_question_stream. rewrite Hr. simpl. unfold ask_stream. rewrite Hv.
  rewrite (retrieve_some _ _ _ _ Hq). simpl. by rewrite set_store_same.
Qed.

Lemma ask_stream_no_hits_not_committed_witness :
  (system_ready (Demo.ready_app Demo.empty_store) = true
   /\ vectorstore (Demo.ready_app Demo.empty_store) = Some Demo.empty_store
   /\ similarity_search_with_score Demo.empty_store "Who won in 1066?" 10 = Ok [])
  /\ ask_question_stream (Demo.ready_app Demo.empty_store) Demo.broken_llm
       "Who won in 1066?" (Some "s1") "u" "t"
     = (StreamingResponse [no_info_event "Who won in 1066?"] "s1",
        Demo.ready_app Demo.empty_store).
Proof.
  split; [split; [reflexivity|split; reflexivity]|].
  apply (ask_stream_no_hits_not_committed (Demo.ready_app Demo.empty_store) Demo.broken_llm
           "Who won in 1066?" (Some "s1") "u" "t" Demo.empty_store);
    reflexivity.
Defined.

(** ** Streams that break *)

Definition line_done (l : stream_line) : bool :=
  match l with LineJson _ d => d | _ => false end.

(** The ["response"] fields of the lines, in order. *)
Definition line_responses (ls : list stream_line) : list string :=
  flat_map (fun l => match l with LineJson (Some x) _ => [x] | _ => [] end) ls.

Lemma stream_loop_no_done (ls : list stream_line) (failure : option string) :
  Forall (fun l => line_done l = false) ls ->
  stream_loop ls failure
  = (line_responses ls ++ match failure with Some e => [error_text e] | None => [] end)%list.
Proof.
  induction 1 as [|l t Hl _ IH]; [reflexivity|].
  destruct l as [| |r d]; simpl; try exact IH.
  simpl in Hl. subst d. rewrite IH. by destruct r.
Qed.

Lemma truthy_app_r (x y : string) : truthy y = true -> truthy (x ++ y) = true.
Proof. destruct x; [done|]. reflexivity. Qed.

Lemma truthy_resolve (req_sid : option string) (fresh : string) :
  truthy fresh = true -> truthy (resolve_session req_sid fresh) = true.
Proof.
  intros Hf. destruct req_sid as [r|]; simpl; [|done].
  destruct (truthy r) eqn:E; done.
Qed.

Lemma accumulate_chunk (full c : string) :
  (if truthy c then full ++ c else full) = full ++ c.
Proof. destruct c; simpl; [by rewrite str_app_nil_r|done]. Qed.

(** The controller on the chunk events of a stream that completes. *)
Lemma stream_controller_chunks (q sid now : string) (frags : list string)
    (full : string) (srcs : list source) (store : gmap string (list turn)) :
  stream_controller q sid now (map chunk_event frags ++ [done_event])%list None full srcs store
  = ((map chunk_event frags ++ [done_event])%list,
     let ans := full ++ foldr String.append "" frags in
     if truthy ans && truthy sid then append_entry store sid (mk_turn q ans srcs now)
     else store).
Proof.
  revert full. induction frags as [|f t IH]; intros full.
  - simpl. by rewrite str_app_nil_r.
  - cbn [map List.app stream_controller chunk_event ev_sources ev_answer_chunk ev_done].
    rewrite accumulate_chunk. simpl default. rewrite IH. simpl.
    by rewrite str_app_assoc.
Qed.

(** The whole controller on a non-empty retrieval. *)
Lemma stream_controller_sources (q sid now : string) (srcs : list source) (frags : list string)
    (store : gmap string (list turn)) :
  stream_controller q sid now
    (sources_event q srcs :: map chunk_event frags ++ [done_event])%list None "" [] store
  = ((sources_event q srcs :: map chunk_event frags ++ [done_event])%list,
     let ans := foldr String.append "" frags in
     if truthy ans && truthy sid then append_entry store sid (mk_turn q ans srcs now)
     else store).
Proof.
  cbn [stream_controller sources_event ev_sources ev_answer_chunk ev_done truthy default].
  rewrite stream_controller_chunks. reflexivity.
Qed.

Lemma truthy_foldr_last (l : list string) (x : string) :
  truthy x = true -> truthy (foldr String.append "" (l ++ [x])%list) = true.
Proof.
  intros Hx. induction l as [|a t IH]; simpl.
  - by rewrite str_app_nil_r.
  - by apply truthy_app_r.
Qed.

(** ** C1: a Generation Service failure in the middle of a stream *)

(** C1 (as amended).  [generate_stream] turns a failure of the Ollama call
    into one more ordinary fragment, ["Error generating response: ..."]: the
    stream then emits it as an [answer_chunk], ends with [{"done": True}],
    and the controller commits the partial text followed by the error text
    as one turn.  The controller's [{"error", "done": True}] event comes
    only from an exception of [ask_stream] itself (the store's query), and
    then nothing is committed. *)
Theorem stream_generation_failure (st : app) (llm : ollama) (q : string)
    (req_sid : option string) (fresh now : string) (s : vector_store) :
  system_ready st = true -> vectorstore st = Some s -> truthy fresh = true ->
  let sid := resolve_session req_sid fresh in
  (forall hits e,
     similarity_search_with_score s q 10 = Ok hits -> hits <> [] ->
     let docs := format_results 0 hits in
     let p := build_prompt q docs (store_get (conversation_store st) sid) in
     Forall (fun l => line_done l = false) (api_generate_lines llm p) ->
     api_generate_failure llm p = Some e ->
     let frags := (line_responses (api_generate_lines llm p) ++ [error_text e])%list in
     ask_question_stream st llm q req_sid fresh now
     = (StreamingResponse
          (sources_event q (format_sources docs) :: map chunk_event frags ++ [done_event])%list sid,
        set_store st (append_entry (conversation_store st) sid
                        (mk_turn q (String.concat "" frags) (format_sources docs) now))))
  /\ (forall e, similarity_search_with_score s q 10 = Raise e ->
        ask_question_stream st llm q req_sid fresh now
        = (StreamingResponse [error_event e] sid, st)).
Proof.
  intros Hr Hv Hf sid. split.
  - intros hits e Hq Hne docs p Hlines Hfail frags.
    assert (Hret : retrieve_relevant_docs (vectorstore st) q 10 = Ok docs)
      by (rewrite Hv; by apply retrieve_some).
    assert (Hne' : docs <> []) by (unfold docs; by rewrite format_results_nil).
    unfold ask_question_stream. rewrite Hr. simpl negb. cbv iota zeta.
    rewrite (ask_stream_nonempty _ llm q _ _ Hret Hne').
    unfold generate_answer_stream, generate_stream.
    fold sid. fold p. rewrite (stream_loop_no_done _ _ Hlines), Hfail. fold frags.
    rewrite stream_controller_sources. cbv zeta. unfold frags.
    rewrite truthy_foldr_last by reflexivity.
    assert (Hs : truthy sid = true) by (apply truthy_resolve; exact Hf).
    rewrite Hs. simpl andb.
    by rewrite concat_empty_fold.
  - intros e Hq. unfold ask_question_stream. rewrite Hr. simpl negb. cbv iota zeta.
    unfold ask_stream. rewrite Hv. simpl. rewrite Hq. simpl.
    by rewrite set_store_same.
Qed.

Lemma stream_generation_failure_witness :
  let st := Demo.ready_app Demo.sky_store in
  let docs := format_results 0 [(Demo.sky_doc, 1%Z)] in
  let frags := ["The sky"; error_text "connection reset"] in
  ask_question_stream st Demo.broken_llm "What color is the sky?" (Some "s1") "u" "t"
  = (StreamingResponse
       (sources_event "What color is the sky?" (format_sources docs)
          :: map chunk_event frags ++ [done_event])%list "s1",
     set_store st (append_entry ∅ "s1"
       (mk_turn "What color is the sky?" (String.concat "" frags) (format_sources docs) "t"))).
Proof.
  intros st docs frags.
  exact (proj1 (stream_generation_failure st Demo.broken_llm "What color is the sky?"
                  (Some "s1") "u" "t" Demo.sky_store eq_refl eq_refl eq_refl)
           [(Demo.sky_doc, 1%Z)] "connection reset" eq_refl ltac:(discriminate)
           ltac:(simpl; repeat constructor) eq_refl).
Defined.

(** C1 counterexample: Ollama breaks after the fragment ["The sky"].  The
    stream ends with [{"done": True}], no event carries ["error"], and the
    session gains the turn ["The skyError generating response: connection reset"]. *)
Lemma stream_generation_failure_counterexample :
  let out := ask_question_stream (Demo.ready_app Demo.sky_store) Demo.broken_llm
               "What color is the sky?" (Some "s1") "u" "t" in
  (match out.1 with
   | StreamingResponse evs _ => last evs = Some done_event /\ Forall (fun ev => ev_error ev = None) evs
   | StreamHttpError _ _ => False
   end)
  /\ store_get (conversation_store out.2) "s1"
     = [mk_turn "What color is the sky?" "The skyError generating response: connection reset"
          (format_sources (format_results 0 [(Demo.sky_doc, 1%Z)])) "t"].
Proof.
  vm_compute. split; [split; [reflexivity|repeat constructor]|reflexivity].
Qed.

(** ** C4: a Generation Service failure in atomic mode *)

(** C4 (as amended).  [OllamaLLM.generate] turns a failure of the Ollama
    call into the text ["Error generating response: ..."]; [/ask] returns
    it (stripped) as an ordinary answer with the sources and appends it to
    the session as an ordinary turn. *)
Theorem ask_generation_failure (st : app) (llm : ollama) (q : string)
    (req_sid : option string) (fresh now : string) (s : vector_store)
    (hits : list (document * Z)) (e : string) :
  system_ready st = true -> vectorstore st = Some s ->
  similarity_search_with_score s q 10 = Ok hits -> hits <> [] ->
  let sid := resolve_session req_sid fresh in
  let docs := format_results 0 hits in
  let p := build_prompt q docs (store_get (conversation_store st) sid) in
  api_generate llm p = Raise e ->
  let a := py_strip (error_text e) in
  ask_question st llm q req_sid fresh now
  = (AnswerResponse q a (format_sources docs) sid,
     set_store st (append_entry (conversation_store st) sid
                     (mk_turn q a (format_sources docs) now)), [p]).
Proof.
  intros Hr Hv Hq Hne sid docs p Hfail a.
  assert (Hret : retrieve_relevant_docs (vectorstore st) q 10 = Ok docs)
    by (rewrite Hv; by apply retrieve_some).
  assert (Hne' : docs <> []) by (unfold docs; by rewrite format_results_nil).
  unfold ask_question. rewrite Hr. simpl negb. cbv iota zeta.
  rewrite (ask_nonempty _ llm q _ _ Hret Hne').
  unfold generate_answer, generate. fold sid. fold p. rewrite Hfail. reflexivity.
Qed.

Lemma ask_generation_failure_witness :
  let st := Demo.ready_app Demo.sky_store in
  let docs := format_results 0 [(Demo.sky_doc, 1%Z)] in
  let a := py_strip (error_text "connection refused") in
  (ask_question st Demo.broken_llm "What color is the sky?" (Some "s1") "u" "t").1
  = (AnswerResponse "What color is the sky?" a (format_sources docs) "s1",
     set_store st (append_entry ∅ "s1" (mk_turn "What color is the sky?" a (format_sources docs) "t"))).
Proof.
  intros st docs a.
  rewrite (ask_generation_failure st Demo.broken_llm "What color is the sky?" (Some "s1") "u" "t"
             Demo.sky_store [(Demo.sky_doc, 1%Z)] "connection refused"
             eq_refl eq_refl eq_refl ltac:(discriminate) eq_refl).
  reflexivity.
Defined.

(** C4 counterexample: Ollama refuses the connection.  [/ask] answers
    ["Error generating response: connection refused"] as a normal 200
    answer and the session gains that turn. *)
Lemma ask_generation_failure_counterexample :
  let out := ask_question (Demo.ready_app Demo.sky_store) Demo.broken_llm
               "What color is the sky?" (Some "s1") "u" "t" in
  out.1.1 = AnswerResponse "What color is the sky?"
              "Error generating response: connection refused"
              (format_sources (format_results 0 [(Demo.sky_doc, 1%Z)])) "s1"
  /\ store_get (conversation_store out.1.2) "s1"
     = [mk_turn "What color is the sky?" "Error generating response: connection refused"
          (format_sources (format_results 0 [(Demo.sky_doc, 1%Z)])) "t"].
Proof. vm_compute. split; reflexivity. Qed.

(** ** C9: unknown sessions *)

(** C9 (as amended).  For a session id absent from [conversation_store],
    both [GET /conversations/{id}] and [DELETE /conversations/{id}] answer
    404 (the delete changes nothing); only the internal lookup of [/ask]
    and [/ask/stream], [conversation_store.get(id, [])], yields the empty
    history. *)
Theorem unknown_session_not_found (st : app) (sid : string) :
  conversation_store st !! sid = None ->
  get_conversation_history st sid = HistoryHttpError 404 (session_not_found sid)
  /\ clear_conversation_history st sid = (ClearHttpError 404 (session_not_found sid), st)
  /\ store_get (conversation_store st) sid = [].
Proof.
  intros Hn. unfold get_conversation_history, clear_conversation_history, store_get.
  by rewrite Hn.
Qed.

Lemma unknown_session_not_found_witness :
  conversation_store (initial_app []) !! "unknown" = None
  /\ get_conversation_history (initial_app []) "unknown"
     = HistoryHttpError 404 (session_not_found "unknown").
Proof.
  split; [reflexivity|].
  apply (unknown_session_not_found (initial_app []) "unknown"). reflexivity.
Defined.

(** C9 counterexample: on a fresh process the history read of ["unknown"]
    is a 404, not an empty history. *)
Lemma unknown_session_not_found_counterexample :
  get_conversation_history (initial_app []) "unknown"
    = HistoryHttpError 404 "Session 'unknown' not found"
  /\ match get_conversation_history (initial_app []) "unknown" with
     | ConversationHistoryResponse _ _ _ => False
     | HistoryHttpError _ _ => True
     end.
Proof. vm_compute. split; [reflexivity|exact I]. Qed.

(** ** C10: readiness and the engine's store *)

Lemma ask_question_keeps (st : app) (llm : ollama) (q : string) (req_sid : option string)
    (fresh now : string) :
  let st' := (ask_question st llm q req_sid fresh now).1.2 in
  system_ready st' = system_ready st /\ vectorstore st' = vectorstore st.
Proof. unfold ask_question. repeat case_match; simpl; done. Qed.

Lemma ask_question_stream_keeps (st : app) (llm : ollama) (q : string)
    (req_sid : option string) (fresh now : string) :
  let st' := (ask_question_stream st llm q req_sid fresh now).2 in
  system_ready st' = system_ready st /\ vectorstore st' = vectorstore st.
Proof. unfold ask_question_stream. repeat case_match; simpl; done. Qed.

Definition ready_has_store (st : app) : Prop :=
  system_ready st = true -> vectorstore st <> None.

Lemma step_ready_has_store (st st' : app) :
  step st st' -> ready_has_store st -> ready_has_store st'.
Proof.
  unfold ready_has_store.
  destruct 1 as [st ld bs|st fs rem|st files|st llm q r f n|st llm q r f n|st sid|st];
    intros Hinv.
  - unfold initialize_system. repeat case_match; simpl; done.
  - unfold reset_system. destruct fs; simpl; done.
  - done.
  - destruct (ask_question_keeps st llm q r f n) as [-> ->]. done.
  - destruct (ask_question_stream_keeps st llm q r f n) as [-> ->]. done.
  - unfold clear_conversation_history. case_match; simpl; done.
  - done.
Qed.

Lemma rtc_ready_has_store (st st' : app) :
  rtc step st st' -> ready_has_store st -> ready_has_store st'.
Proof.
  induction 1 as [x|x y z Hxy _ IH]; [done|].
  intros Hx. apply IH. by apply (step_ready_has_store x y).
Qed.

(** C10. In every state reachable through the endpoints from start-up,
    [system_ready] implies an attached store, so once the readiness check
    of [/ask] or [/ask/stream] passes, [ask] never answers
    ["System not initialized..."] and [ask_stream] never yields
    [{"error": "System not initialized"}]. *)
Theorem ready_implies_store (st : app) :
  reachable st -> system_ready st = true ->
  (exists s, vectorstore st = Some s)
  /\ (forall llm q hist, (ask (vectorstore st) llm q hist).1 <> Ok (AskError not_initialized_msg))
  /\ (forall llm q hist, (ask_stream (vectorstore st) llm q hist).1 <> [not_initialized_event]).
Proof.
  intros [files Hrt] Hr.
  assert (Hinv : ready_has_store st).
  { apply (rtc_ready_has_store (initial_app files)); [exact Hrt|].
    unfold ready_has_store. simpl. discriminate. }
  destruct (vectorstore st) as [s|] eqn:Hv; [|by destruct (Hinv Hr)].
  split; [eauto|split].
  - intros llm q hist. unfold ask.
    destruct (retrieve_relevant_docs (Some s) q 10) as [[|d ds]|e]; simpl; discriminate.
  - intros llm q hist. unfold ask_stream.
    destruct (retrieve_relevant_docs (Some s) q 10) as [[|d ds]|e]; simpl; discriminate.
Qed.

(** ** Witnesses *)

Lemma sky_store_nearest_first : nearest_first Demo.sky_store.
Proof. intros q k hits H. injection H as <-. repeat constructor. Qed.

Lemma retrieve_relevant_docs_ranked_witness :
  (forall s, Some Demo.sky_store = Some s -> nearest_first s)
  /\ map relevance_rank (format_results 0 [(Demo.sky_doc, 1%Z)]) = seq 1 1
  /\ Sorted Z.le (map relevance_score (format_results 0 [(Demo.sky_doc, 1%Z)])).
Proof.
  assert (Hnf : forall s, Some Demo.sky_store = Some s -> nearest_first s).
  { intros s Hs. injection Hs as <-. exact sky_store_nearest_first. }
  split; [exact Hnf|].
  pose proof (retrieve_relevant_docs_ranked (Some Demo.sky_store) "What color is the sky?" 10 Hnf)
    as H.
  simpl in H. destruct H as (H1 & H2 & _). split; [exact H1|exact H2].
Defined.

(** Four stored turns: the prompt gets the last three, in order. *)
Definition four_turns : list turn :=
  [mk_turn "q1" "a1" [] "t1"; mk_turn "q2" "a2" [] "t2";
   mk_turn "q3" "a3" [] "t3"; mk_turn "q4" "a4" [] "t4"].

Definition four_turns_app : app :=
  mk_app true (Some Demo.sky_store) {[ "s1" := four_turns ]} [].

Lemma prompt_history_window_witness :
  py_last 3 four_turns = drop 1 four_turns
  /\ (ask_question four_turns_app (Demo.echo_llm "Blue.") "What color is the sky?" (Some "s1") "u" "t").2
     = [build_prompt "What color is the sky?" (format_results 0 [(Demo.sky_doc, 1%Z)])
          (store_get (conversation_store four_turns_app) (resolve_session (Some "s1") "u"))].
Proof.
  split; [reflexivity|].
  destruct (prompt_history_window "What color is the sky?"
              (format_results 0 [(Demo.sky_doc, 1%Z)]) four_turns) as (_ & _ & _ & _ & _ & H).
  exact (H four_turns_app (Demo.echo_llm "Blue.") (Some "s1") "u" "t" Demo.sky_store
           [(Demo.sky_doc, 1%Z)] eq_refl eq_refl eq_refl ltac:(discriminate)).
Defined.

Lemma ask_stream_event_order_witness :
  let docs := format_results 0 [(Demo.sky_doc, 1%Z)] in
  retrieve_relevant_docs (Some Demo.sky_store) "What color is the sky?" 10 = Ok docs
  /\ docs <> []
  /\ ask_stream (Some Demo.sky_store) (Demo.echo_llm "Blue.") "What color is the sky?" []
     = ((sources_event "What color is the sky?" (format_sources docs)
           :: map chunk_event
                (generate_answer_stream (Demo.echo_llm "Blue.") "What color is the sky?" docs [])
           ++ [done_event])%list, None).
Proof.
  intros docs. split; [reflexivity|split; [discriminate|]].
  apply (proj1 (ask_stream_event_order (Some Demo.sky_store) (Demo.echo_llm "Blue.")
                  "What color is the sky?" [] docs eq_refl ltac:(discriminate))).
Defined.

Lemma stream_concat_vs_atomic_witness :
  let docs := format_results 0 [(Demo.sky_doc, 1%Z)] in
  exists evs,
    ask_stream (Some Demo.sky_store) (Demo.echo_llm "Blue.") "What color is the sky?" [] = (evs, None)
    /\ (ask (Some Demo.sky_store) (Demo.echo_llm "Blue.") "What color is the sky?" []).1
       = Ok (AskAnswer "What color is the sky?" (py_strip (concat_answer_chunks evs))
               (format_sources docs)).
Proof.
  intros docs.
  apply (stream_concat_vs_atomic (Some Demo.sky_store) (Demo.echo_llm "Blue.")
           "What color is the sky?" [] docs); [intros p; reflexivity|reflexivity|discriminate].
Defined.

Lemma ready_implies_store_witness :
  reachable (Demo.ready_app Demo.sky_store)
  /\ exists s, vectorstore (Demo.ready_app Demo.sky_store) = Some s.
Proof.
  assert (Hreach : reachable (Demo.ready_app Demo.sky_store)).
  { exists ["sky.txt"]. apply rtc_once.
    exact (step_initialize (initial_app ["sky.txt"]) (fun _ => [Demo.sky_doc])
             (fun _ => Ok Demo.sky_store)). }
  split; [exact Hreach|].
  exact (proj1 (ready_implies_store (Demo.ready_app Demo.sky_store) Hreach eq_refl)).
Defined.

(** * Further properties of the code *)

(** ** OllamaLLM.generate_stream *)

(** [generate_stream] stops at the first line whose ["done"] is true: the
    lines after it, and a failure after it, are never seen. *)
Theorem generate_stream_stops_at_done (llm : ollama) (p : string)
    (pre post : list stream_line) (r : option string) :
  Forall (fun l => line_done l = false) pre ->
  api_generate_lines llm p = (pre ++ LineJson r true :: post)%list ->
  generate_stream llm p
  = (line_responses pre ++ match r with Some x => [x] | None => [] end)%list.
Proof.
  intros Hpre Hl. unfold generate_stream. rewrite Hl. clear Hl.
  generalize (api_generate_failure llm p) as f. intros f.
  unfold line_responses.
  induction Hpre as [|l t Hd _ IH]; [simpl; by rewrite List.app_nil_r|].
  destruct l as [| |r' d]; simpl; try exact IH.
  simpl in Hd; subst. rewrite IH. rewrite List.app_assoc. destruct r'; reflexivity.
Qed.

Lemma generate_stream_stops_at_done_witness :
  generate_stream
    (mk_ollama (fun _ => Ok "") (fun _ => [LineEmpty; LineJson (Some "A") false;
                                          LineJson (Some "B") true; LineJson (Some "C") false])
               (fun _ => Some "reset")) "p"
  = ["A"; "B"].
Proof.
  apply (generate_stream_stops_at_done _ "p" [LineEmpty; LineJson (Some "A") false]
           [LineJson (Some "C") false] (Some "B")); [repeat constructor|reflexivity].
Defined.


(** ** The controller of /ask/stream *)

(** Without a [done] event the controller forwards every event, adds the
    error event of a final exception, and commits nothing. *)
Theorem stream_controller_no_done (q sid now : string) (evs : list event)
    (exn : option string) (full : string) (srcs : list source)
    (store : gmap string (list turn)) :
  Forall (fun e => ev_done e <> Some true) evs ->
  stream_controller q sid now evs exn full srcs store
  = ((evs ++ match exn with Some e => [error_event e] | None => [] end)%list, store).
Proof.
  intros Hevs. revert full srcs.
  induction Hevs as [|e t He _ IH]; intros full srcs; simpl.
  - by destruct exn.
  - assert (Hd : default false (ev_done e) = false)
      by (destruct (ev_done e) as [[]|]; simpl; congruence).
    rewrite Hd. by rewrite IH.
Qed.

Lemma stream_controller_no_done_witness :
  stream_controller "q" "s1" "t" [not_initialized_event] None "" [] ∅
  = ([not_initialized_event], ∅).
Proof.
  apply (stream_controller_no_done "q" "s1" "t" [not_initialized_event] None "" [] ∅).
  repeat constructor. discriminate.
Defined.

(** The controller stops at the first [done] event: later events and a
    later exception change neither what it forwards nor what it commits. *)
Theorem stream_controller_stops_at_done (q sid now : string) (pre post : list event)
    (d : event) (exn : option string) (full : string) (srcs : list source)
    (store : gmap string (list turn)) :
  Forall (fun e => ev_done e <> Some true) pre -> ev_done d = Some true ->
  stream_controller q sid now (pre ++ d :: post)%list exn full srcs store
  = stream_controller q sid now (pre ++ [d])%list None full srcs store
  /\ (stream_controller q sid now (pre ++ d :: post)%list exn full srcs store).1
     = (pre ++ [d])%list.
Proof.
  intros Hpre Hd. revert full srcs.
  induction Hpre as [|e t He _ IH]; intros full srcs; simpl.
  - rewrite Hd. done.
  - assert (Hd' : default false (ev_done e) = false)
      by (destruct (ev_done e) as [[]|]; simpl; congruence).
    rewrite Hd'.
    match goal with
    | |- context [stream_controller _ _ _ (t ++ d :: post)%list exn ?f ?s _] =>
        destruct (IH f s) as [H1 H2]; rewrite H1;
        destruct (stream_controller q sid now (t ++ [d])%list None f s store)
          as [o s'] eqn:E
    end.
    rewrite H1 in H2. simpl in H2. subst o. split; reflexivity.
Qed.

Lemma stream_controller_stops_at_done_witness :
  (stream_controller "q" "s1" "t" [chunk_event "a"; done_event; chunk_event "b"]
     (Some "late") "" [] ∅).1
  = [chunk_event "a"; done_event].
Proof.
  apply (stream_controller_stops_at_done "q" "s1" "t" [chunk_event "a"] [chunk_event "b"]
           done_event (Some "late") "" [] ∅); [|reflexivity].
  repeat constructor. discriminate.
Defined.

(** ** The Streamlit client against the ledger *)

Lemma client_read_chunks (frags : list string) (full : string) (srcs : list source) :
  client_read (map chunk_event frags ++ [done_event])%list full srcs
  = (full ++ foldr String.append "" frags, srcs).
Proof.
  revert full. induction frags as [|f t IH]; intros full; simpl.
  - by rewrite str_app_nil_r.
  - rewrite accumulate_chunk, IH. by rewrite str_app_assoc.
Qed.

Lemma format_sources_nonempty (docs : list relevant_doc) :
  docs <> [] -> exists s t, format_sources docs = s :: t.
Proof. destruct docs as [|d t]; [done|]. intros _. by eexists _, _. Qed.

(** On /ask/stream with documents found, the answer the Streamlit client
    assembles from the events is the concatenation of the generated
    fragments, and it is exactly the answer the server commits to the
    ledger; the client keeps the sources of the first event. When every
    fragment is empty, nothing is committed. *)
Theorem stream_client_matches_ledger (st : app) (llm : ollama) (q : string)
    (req_sid : option string) (fresh now : string) (docs : list relevant_doc) :
  system_ready st = true ->
  retrieve_relevant_docs (vectorstore st) q 10 = Ok docs -> docs <> [] ->
  truthy fresh = true ->
  let sid := resolve_session req_sid fresh in
  let ans := String.concat ""
               (generate_answer_stream llm q docs (store_get (conversation_store st) sid)) in
  exists evs,
    ask_question_stream st llm q req_sid fresh now
    = (StreamingResponse evs sid,
       set_store st (if truthy ans
                     then append_entry (conversation_store st) sid
                            (mk_turn q ans (format_sources docs) now)
                     else conversation_store st))
    /\ client_read evs "" [] = (ans, format_sources docs).
Proof.
  intros Hr Hret Hne Hf sid ans.
  assert (Hsid : truthy sid = true) by exact (truthy_resolve req_sid fresh Hf).
  unfold ask_question_stream. rewrite Hr. simpl.
  rewrite (ask_stream_nonempty _ llm q _ docs Hret Hne).
  rewrite stream_controller_sources.
  eexists. split; [|].
  - fold sid. unfold ans. rewrite concat_empty_fold.
    rewrite Hsid. rewrite andb_true_r. reflexivity.
  - destruct (format_sources_nonempty docs Hne) as (s0 & t0 & Hs).
    simpl. rewrite Hs. simpl. rewrite client_read_chunks. rewrite <- Hs.
    unfold ans. by rewrite concat_empty_fold.
Qed.

Lemma stream_client_matches_ledger_witness :
  exists evs,
    ask_question_stream (Demo.ready_app Demo.sky_store) (Demo.echo_llm "Blue") "What colour?"
      None "s1" "t0"
    = (StreamingResponse evs "s1",
       set_store (Demo.ready_app Demo.sky_store)
         (if truthy (String.concat ""
                      (generate_answer_stream (Demo.echo_llm "Blue") "What colour?"
                         (format_results 0 [(Demo.sky_doc, 1%Z)])
                         (store_get (conversation_store (Demo.ready_app Demo.sky_store)) "s1")))
          then append_entry (conversation_store (Demo.ready_app Demo.sky_store)) "s1"
                 (mk_turn "What colour?"
                    (String.concat ""
                       (generate_answer_stream (Demo.echo_llm "Blue") "What colour?"
                          (format_results 0 [(Demo.sky_doc, 1%Z)])
                          (store_get (conversation_store (Demo.ready_app Demo.sky_store)) "s1")))
                    (format_sources (format_results 0 [(Demo.sky_doc, 1%Z)])) "t0")
          else conversation_store (Demo.ready_app Demo.sky_store)))
    /\ client_read evs "" []
       = (String.concat ""
            (generate_answer_stream (Demo.echo_llm "Blue") "What colour?"
               (format_results 0 [(Demo.sky_doc, 1%Z)])
               (store_get (conversation_store (Demo.ready_app Demo.sky_store)) "s1")),
          format_sources (format_results 0 [(Demo.sky_doc, 1%Z)])).
Proof.
  apply (stream_client_matches_ledger (Demo.ready_app Demo.sky_store) (Demo.echo_llm "Blue")
           "What colour?" None "s1" "t0" (format_results 0 [(Demo.sky_doc, 1%Z)]));
    [reflexivity|reflexivity|discriminate|reflexivity].
Defined.

(** ** One question request changes at most one session *)

Lemma stream_controller_store_cases (q sid now : string) (evs : list event)
    (exn : option string) (full : string) (srcs : list source)
    (store : gmap string (list turn)) :
  (stream_controller q sid now evs exn full srcs store).2 = store
  \/ exists t, (stream_controller q sid now evs exn full srcs store).2
               = append_entry store sid t /\ question t = q.
Proof.
  revert full srcs. induction evs as [|e t IH]; intros full srcs; simpl.
  - left. by destruct exn.
  - case_match.
    + simpl. case_match; [right; eexists; split; reflexivity|left; reflexivity].
    + match goal with
      | |- context [stream_controller _ _ _ t exn ?f ?s _] =>
          destruct (IH f s) as [Hk|Hk];
          destruct (stream_controller q sid now t exn f s store) as [o s'];
          simpl in *; [left; exact Hk|right; exact Hk]
      end.
Qed.

Lemma ask_answers_its_query (vs : option vector_store) (llm : ollama) (q q' a : string)
    (hist : list turn) (srcs : list source) (calls : list string) :
  ask vs llm q hist = (Ok (AskAnswer q' a srcs), calls) -> q' = q.
Proof. unfold ask. repeat case_match; intros Ha; inversion Ha; done. Qed.

Lemma question_request_effect (st : app) (llm : ollama) (q : string)
    (req_sid : option string) (fresh now : string) :
  appends_at_most_one st (ask_question st llm q req_sid fresh now).1.2
    (resolve_session req_sid fresh) q
  /\ appends_at_most_one st (ask_question_stream st llm q req_sid fresh now).2
       (resolve_session req_sid fresh) q.
Proof.
  unfold appends_at_most_one. split.
  - unfold ask_question. destruct (system_ready st) eqn:Hr; simpl;
      [|split_and!; auto].
    destruct (ask (vectorstore st) llm q _) as [[[e|q' a srcs]|e] calls] eqn:E; simpl;
      split_and!; auto.
    all: right; eexists; split; [reflexivity|];
      exact (ask_answers_its_query _ _ _ _ _ _ _ _ E).
  - unfold ask_question_stream. destruct (system_ready st) eqn:Hr; simpl;
      [|split_and!; auto].
    destruct (ask_stream _ _ _ _) as [evs exn].
    pose proof (stream_controller_store_cases q (resolve_session req_sid fresh) now evs exn ""
                  [] (conversation_store st)) as Hc.
    destruct (stream_controller _ _ _ _ _ _ _ _) as [o s']. simpl in *.
    split_and!; auto.
Qed.

(** A question request, on /ask or on /ask/stream, whatever the retrieval
    and the model do, appends at most one turn, for its own question, to
    its own session, and changes nothing else. *)
Theorem question_request_appends_at_most_one (st : app) (llm : ollama) (q : string)
    (req_sid : option string) (fresh now : string) :
  appends_at_most_one st (ask_question st llm q req_sid fresh now).1.2
    (resolve_session req_sid fresh) q
  /\ appends_at_most_one st (ask_question_stream st llm q req_sid fresh now).2
       (resolve_session req_sid fresh) q.
Proof. exact (question_request_effect st llm q req_sid fresh now). Qed.

(** ** Source previews *)

Lemma substring0_length (n : nat) (s : string) :
  String.length (String.substring 0 n s) = Nat.min n (String.length s).
Proof.
  revert n. induction s as [|c s IH]; intros [|n]; simpl; try reflexivity.
  by rewrite IH.
Qed.

Lemma str_length_app (s1 s2 : string) :
  String.length (s1 ++ s2) = String.length s1 + String.length s2.
Proof. induction s1 as [|c s IH]; [reflexivity|]. simpl. by rewrite IH. Qed.

(** The sources returned by [ask] and [ask_stream] follow the retrieved
    documents one for one, with their scores and metadata; each preview is
    the first 200 characters of the content followed by "...", so it is
    never longer than 203 characters. *)
Theorem format_sources_previews (docs : list relevant_doc) :
  map src_relevance_score (format_sources docs) = map relevance_score docs
  /\ Forall2 (fun d s =>
       content_preview s = py_prefix 200 (rd_content d) ++ "..."
       /\ String.length (content_preview s) = Nat.min 200 (String.length (rd_content d)) + 3
       /\ src_metadata s = rd_metadata d)
     docs (format_sources docs).
Proof.
  unfold format_sources. split.
  - rewrite map_map. reflexivity.
  - induction docs as [|d t IH]; simpl; constructor; [|exact IH].
    simpl. split_and!; try reflexivity.
    unfold py_prefix. rewrite str_length_app, substring0_length. reflexivity.
Qed.

(** ** The ledger endpoints *)

(** After a successful /ask, the response carries the session id under
    which the turn was stored, and reading that session's history gives
    the earlier turns followed by the new one; other sessions read as
    before. *)
Theorem ask_then_history (st : app) (llm : ollama) (q : string) (req_sid : option string)
    (fresh now q' a : string) (srcs : list source) (calls : list string) :
  system_ready st = true ->
  ask (vectorstore st) llm q
      (store_get (conversation_store st) (resolve_session req_sid fresh))
  = (Ok (AskAnswer q' a srcs), calls) ->
  let sid := resolve_session req_sid fresh in
  let old := store_get (conversation_store st) sid in
  (ask_question st llm q req_sid fresh now).1.1 = AnswerResponse q' a srcs sid
  /\ get_conversation_history (ask_question st llm q req_sid fresh now).1.2 sid
     = ConversationHistoryResponse sid (S (length old)) (old ++ [mk_turn q' a srcs now])%list
  /\ (forall sid', sid' <> sid ->
      get_conversation_history (ask_question st llm q req_sid fresh now).1.2 sid'
      = get_conversation_history st sid').
Proof.
  intros Hr Ha sid old.
  unfold ask_question. rewrite Hr. simpl. fold sid. fold sid in Ha. rewrite Ha. simpl.
  split_and!; [reflexivity| |].
  - unfold get_conversation_history. simpl. unfold append_entry.
    rewrite lookup_insert_eq. rewrite length_app. simpl. unfold old. f_equal. lia.
  - intros sid' Hne. unfold get_conversation_history. simpl.
    by rewrite append_entry_other.
Qed.

Lemma ask_then_history_witness :
  let st := Demo.ready_app Demo.sky_store in
  let docs := format_results 0 [(Demo.sky_doc, 1%Z)] in
  (ask_question st (Demo.echo_llm "Blue") "What colour?" (Some "s1") "u" "t").1.1
  = AnswerResponse "What colour?" (py_strip "Blue") (format_sources docs) "s1"
  /\ get_conversation_history
       (ask_question st (Demo.echo_llm "Blue") "What colour?" (Some "s1") "u" "t").1.2 "s1"
     = ConversationHistoryResponse "s1" 1
         [mk_turn "What colour?" (py_strip "Blue") (format_sources docs) "t"]
  /\ (forall sid', sid' <> "s1" ->
      get_conversation_history
        (ask_question st (Demo.echo_llm "Blue") "What colour?" (Some "s1") "u" "t").1.2 sid'
      = get_conversation_history st sid').
Proof.
  intros st docs.
  exact (ask_then_history st (Demo.echo_llm "Blue") "What colour?" (Some "s1") "u" "t"
           "What colour?" (py_strip "Blue") (format_sources docs)
           [build_prompt "What colour?" docs []] eq_refl eq_refl).
Defined.




(** Clearing an existing session answers with its id; afterwards the
    session reads as unknown (404), a second clear answers 404, and the
    other sessions read as before. *)
Theorem clear_existing_session (st : app) (sid : string) (h : list turn) :
  conversation_store st !! sid = Some h ->
  (clear_conversation_history st sid).1 = Cleared sid
  /\ get_conversation_history (clear_conversation_history st sid).2 sid
     = HistoryHttpError 404 (session_not_found sid)
  /\ (clear_conversation_history (clear_conversation_history st sid).2 sid).1
     = ClearHttpError 404 (session_not_found sid)
  /\ (forall sid', sid' <> sid ->
      get_conversation_history (clear_conversation_history st sid).2 sid'
      = get_conversation_history st sid').
Proof.
  intros Hs. unfold clear_conversation_history. rewrite Hs. simpl.
  split_and!; [reflexivity| | |].
  - unfold get_conversation_history. simpl. by rewrite lookup_delete_eq.
  - simpl. by rewrite lookup_delete_eq.
  - intros sid' Hne. unfold get_conversation_history. simpl.
    by rewrite lookup_delete_ne.
Qed.

Lemma clear_existing_session_witness :
  let st := (ask_question (Demo.ready_app Demo.sky_store) (Demo.echo_llm "Blue")
               "What colour?" (Some "s1") "u" "t").1.2 in
  (clear_conversation_history st "s1").1 = Cleared "s1"
  /\ get_conversation_history (clear_conversation_history st "s1").2 "s1"
     = HistoryHttpError 404 (session_not_found "s1")
  /\ (clear_conversation_history (clear_conversation_history st "s1").2 "s1").1
     = ClearHttpError 404 (session_not_found "s1")
  /\ (forall sid', sid' <> "s1" ->
      get_conversation_history (clear_conversation_history st "s1").2 sid'
      = get_conversation_history st sid').
Proof.
  intros st.
  exact (clear_existing_session st "s1"
           [mk_turn "What colour?" (py_strip "Blue")
              (format_sources (format_results 0 [(Demo.sky_doc, 1%Z)])) "t"] eq_refl).
Defined.

(** Clearing all conversations answers with the number of sessions in the
    store and leaves none: the listing is empty and every session reads as
    unknown. *)
Theorem clear_all_empties (st : app) :
  (clear_all_conversations st).1 = size (conversation_store st)
  /\ list_all_sessions (clear_all_conversations st).2 = (0, [])
  /\ (forall sid, get_conversation_history (clear_all_conversations st).2 sid
                  = HistoryHttpError 404 (session_not_found sid)).
Proof.
  unfold clear_all_conversations. split_and!; [reflexivity| |].
  - unfold list_all_sessions. simpl. by rewrite map_to_list_empty.
  - intros sid. unfold get_conversation_history. simpl. by rewrite lookup_empty.
Qed.

(** ** Lifecycle: invariant, reset and initialization *)

Definition histories_nonempty (store : gmap string (list turn)) : Prop :=
  map_Forall (fun _ h => h <> []) store.

Lemma append_entry_nonempty (store : gmap string (list turn)) (sid : string) (t : turn) :
  histories_nonempty store -> histories_nonempty (append_entry store sid t).
Proof.
  intros H. unfold append_entry. apply map_Forall_insert_2; [|exact H].
  destruct (store_get store sid); discriminate.
Qed.

Lemma appends_at_most_one_nonempty (st st' : app) (sid q : string) :
  appends_at_most_one st st' sid q ->
  histories_nonempty (conversation_store st) -> histories_nonempty (conversation_store st').
Proof.
  intros (_ & _ & _ & [Hs|(t & Hs & _)]) H; rewrite Hs; [exact H|].
  by apply append_entry_nonempty.
Qed.

Lemma initialize_system_store (st : app) ld bs :
  conversation_store (initialize_system st ld bs).2 = conversation_store st.
Proof. unfold initialize_system. repeat case_match; done. Qed.

Lemma reset_system_store (st : app) fs remaining :
  conversation_store (reset_system st fs remaining).2 = conversation_store st.
Proof. unfold reset_system. repeat case_match; done. Qed.

Lemma step_nonempty (st st' : app) :
  step st st' ->
  histories_nonempty (conversation_store st) -> histories_nonempty (conversation_store st').
Proof.
  intros Hs H. destruct Hs.
  - by rewrite initialize_system_store.
  - by rewrite reset_system_store.
  - exact H.
  - exact (appends_at_most_one_nonempty _ _ _ _
             (proj1 (question_request_effect st llm q req_sid fresh now)) H).
  - exact (appends_at_most_one_nonempty _ _ _ _
             (proj2 (question_request_effect st llm q req_sid fresh now)) H).
  - unfold clear_conversation_history. case_match; simpl; [|exact H].
    by apply map_Forall_delete.
  - apply map_Forall_empty.
Qed.

Lemma rtc_nonempty (st st' : app) :
  rtc step st st' ->
  histories_nonempty (conversation_store st) -> histories_nonempty (conversation_store st').
Proof. induction 1 as [|x y z Hs _ IH]; [done|]. intros H. by apply IH, (step_nonempty x). Qed.

Lemma omap_length_all_some {A B} (f : A -> option B) (l : list A) :
  Forall (fun x => is_Some (f x)) l -> length (omap f l) = length l.
Proof.
  induction 1 as [|x t [y Hy] _ IH]; [reflexivity|].
  replace (x :: t) with ([x] ++ t)%list by reflexivity.
  rewrite omap_app, !length_app, IH. cbn. rewrite Hy. reflexivity.
Qed.

(** In every reachable state, no session has an empty history, so the
    session listing shows every session of the store, and the count that
    clearing all conversations reports is the count the listing shows. *)
Theorem reachable_sessions_listed (st : app) :
  reachable st ->
  map_Forall (fun _ h => h <> []) (conversation_store st)
  /\ (list_all_sessions st).1 = size (conversation_store st)
  /\ (clear_all_conversations st).1 = (list_all_sessions st).1.
Proof.
  intros [files Hr].
  assert (Hn : histories_nonempty (conversation_store st)).
  { apply (rtc_nonempty _ _ Hr). apply map_Forall_empty. }
  assert (Hc : (list_all_sessions st).1 = size (conversation_store st)).
  { unfold list_all_sessions. simpl. rewrite omap_length_all_some.
    - apply length_map_to_list.
    - apply map_Forall_to_list in Hn. eapply Forall_impl; [exact Hn|].
      intros [sid [|h t]]; simpl; [done|]. intros _. by eexists. }
  split_and!; [exact Hn|exact Hc|]. rewrite Hc. reflexivity.
Qed.

Lemma reachable_sessions_listed_witness :
  map_Forall (fun _ h => h <> [])
    (conversation_store
       (ask_question (Demo.ready_app Demo.sky_store) (Demo.echo_llm "Blue") "What colour?"
          (Some "s1") "u" "t").1.2)
  /\ (list_all_sessions
        (ask_question (Demo.ready_app Demo.sky_store) (Demo.echo_llm "Blue") "What colour?"
           (Some "s1") "u" "t").1.2).1
     = size (conversation_store
               (ask_question (Demo.ready_app Demo.sky_store) (Demo.echo_llm "Blue")
                  "What colour?" (Some "s1") "u" "t").1.2)
  /\ (clear_all_conversations
        (ask_question (Demo.ready_app Demo.sky_store) (Demo.echo_llm "Blue") "What colour?"
           (Some "s1") "u" "t").1.2).1
     = (list_all_sessions
          (ask_question (Demo.ready_app Demo.sky_store) (Demo.echo_llm "Blue") "What colour?"
             (Some "s1") "u" "t").1.2).1.
Proof.
  apply reachable_sessions_listed.
  exists ["sky.txt"].
  eapply rtc_l; [apply (step_initialize _ (fun _ => [Demo.sky_doc]) (fun _ => Ok Demo.sky_store))|].
  eapply rtc_l; [apply (step_ask _ (Demo.echo_llm "Blue") "What colour?" (Some "s1") "u" "t")|].
  apply rtc_refl.
Defined.

(** A successful reset empties the document folder and turns the system
    off, but keeps the vector store and every conversation: afterwards
    both question endpoints answer 400 and change nothing, the health check
    reports the system as not initialized, /initialize answers 400 for lack
    of documents, and every session reads as before. *)
Theorem reset_success_refuses_questions (st : app) (u : unit) (remaining : list string)
    (llm : ollama) (q : string) (req_sid : option string) (fresh now sid : string)
    (ld : list string -> list document) (bs : list document -> outcome vector_store) :
  let st' := (reset_system st (Ok u) remaining).2 in
  (reset_system st (Ok u) remaining).1 = ResetDone
  /\ system_ready st' = false /\ documents st' = []
  /\ vectorstore st' = vectorstore st /\ conversation_store st' = conversation_store st
  /\ ask_question st' llm q req_sid fresh now = (AskHttpError 400 not_ready_detail, st', [])
  /\ ask_question_stream st' llm q req_sid fresh now
     = (StreamHttpError 400 not_ready_detail, st')
  /\ status (health_check st') = "not_initialized"
  /\ initialize_system st' ld bs
     = (InitHttpError 400 "No documents found. Please upload documents first using POST /upload", st')
  /\ get_conversation_history st' sid = get_conversation_history st sid.
Proof. intros st'. split_and!; reflexivity. Qed.

(** /initialize never touches the conversations nor the document list.
    With no uploaded file it answers 400 and changes nothing. When no
    document can be loaded from the uploaded files it answers 500 and turns
    the system off. Otherwise the system is ready exactly when a vector
    store was built, and that store replaces the previous one; when
    building fails the previous store is kept but the system is off. *)
Theorem initialize_system_outcome (st : app) (ld : list string -> list document)
    (bs : list document -> outcome vector_store) :
  let r := (initialize_system st ld bs).1 in
  let st' := (initialize_system st ld bs).2 in
  conversation_store st' = conversation_store st /\ documents st' = documents st
  /\ (documents st = [] ->
      r = InitHttpError 400 "No documents found. Please upload documents first using POST /upload"
      /\ st' = st)
  /\ (documents st <> [] -> ld (documents st) = [] ->
      r = InitHttpError 500 ("Error during initialization: "
                             ++ "No documents found to process! Please upload documents first.")
      /\ system_ready st' = false /\ vectorstore st' = vectorstore st)
  /\ (forall s, documents st <> [] -> initialize_from_documents ld bs (documents st) = Ok s ->
      r = Initialized (length (documents st)) /\ system_ready st' = true
      /\ vectorstore st' = Some s)
  /\ (forall e, documents st <> [] -> initialize_from_documents ld bs (documents st) = Raise e ->
      r = InitHttpError 500 ("Error during initialization: " ++ e)
      /\ system_ready st' = false /\ vectorstore st' = vectorstore st).
Proof.
  intros r st'. unfold r, st', initialize_system.
  destruct (documents st) as [|f fs] eqn:Hd.
  - split_and!; try done; intros; done.
  - destruct (initialize_from_documents ld bs (f :: fs)) as [s|e] eqn:Ei; simpl;
      (split_and!; [reflexivity|reflexivity|done| | |]).
    + intros _ Hl. unfold initialize_from_documents in Ei. rewrite Hl in Ei. discriminate.
    + intros s' _ Hs. injection Hs as <-. done.
    + intros e' _ He. discriminate.
    + intros _ Hl. unfold initialize_from_documents in Ei. rewrite Hl in Ei.
      injection Ei as <-. done.
    + intros s' _ Hs. discriminate.
    + intros e' _ He. injection He as <-. done.
Qed.

(** ** Uploads and the document loader *)

(** Every file name that /upload accepts has an extension, compared without
    case, for which [load_documents] has a loader. *)
Theorem uploaded_extensions_have_loader (filename : string) :
  upload_accepts filename = true -> loader_for (py_lower (splitext_ext filename)) <> None.
Proof.
  unfold upload_accepts. intros H. apply existsb_exists in H as (x & Hin & Hx).
  apply String.eqb_eq in Hx. rewrite Hx.
  unfold allowed_extensions in Hin.
  repeat (destruct Hin as [<-|Hin]; [discriminate|]). destruct Hin.
Qed.

Lemma uploaded_extensions_have_loader_witness :
  loader_for (py_lower (splitext_ext "Report.Final.PDF")) <> None.
Proof. apply uploaded_extensions_have_loader. reflexivity. Defined.

Lemma meta_get_set (m : list (string * string)) (k v dflt : string) :
  meta_get (meta_set m k v) k dflt = v.
Proof.
  induction m as [|[k' v'] t IH]; simpl.
  - by rewrite String.eqb_refl.
  - destruct (String.eqb k k') eqn:E; simpl; rewrite E; [reflexivity|exact IH].
Qed.

(** Every document [load_documents] returns comes from a listed regular
    file whose name does not start with a dot and has a supported
    extension, and carries that file name under the ["filename"] key. *)
Theorem load_documents_filenames (load_with : loader_kind -> string -> outcome (list document))
    (read_excel : string -> outcome string) (entries : list (string * bool)) (d : document) :
  In d (load_documents load_with read_excel entries) ->
  exists filename,
    In (filename, true) entries /\ starts_with_dot filename = false
    /\ loader_for (py_lower (splitext_ext filename)) <> None
    /\ meta_get (metadata d) "filename" "unknown" = filename.
Proof.
  unfold load_documents. intros H. apply in_flat_map in H as ([filename is_file] & Hin & Hd).
  exists filename.
  destruct (starts_with_dot filename) eqn:Hdot; [destruct Hd|].
  destruct is_file; [|destruct Hd].
  destruct (loader_for (py_lower (splitext_ext filename))) as [kind|] eqn:Hk; [|destruct Hd].
  destruct (load_file load_with read_excel kind filename) as [docs|e]; [|destruct Hd].
  apply in_map_iff in Hd as (d0 & <- & _).
  split_and!; try done. simpl. apply meta_get_set.
Qed.

Lemma load_documents_filenames_witness :
  exists filename,
    In (filename, true) [(".env", true); ("notes.TXT", true); ("old", false)]
    /\ starts_with_dot filename = false
    /\ loader_for (py_lower (splitext_ext filename)) <> None
    /\ meta_get
         (metadata (mk_document "hello" [("source", "notes.TXT"); ("filename", "notes.TXT")]))
         "filename" "unknown" = filename.
Proof.
  apply (load_documents_filenames
           (fun _ f => Ok [mk_document "hello" [("source", f)]]) (fun _ => Raise "no excel")
           [(".env", true); ("notes.TXT", true); ("old", false)]).
  vm_compute. left. reflexivity.
Defined.

(** A file whose loader raises (for a spreadsheet: whose loader and
    pandas fallback both raise) contributes nothing, and the other files
    are loaded as if it were absent. *)
Theorem load_documents_skips_failing (load_with : loader_kind -> string -> outcome (list document))
    (read_excel : string -> outcome string) (pre post : list (string * bool)) (f : string) :
  (forall kind, loader_for (py_lower (splitext_ext f)) = Some kind ->
   exists e, load_file load_with read_excel kind f = Raise e) ->
  load_documents load_with read_excel (pre ++ (f, true) :: post)%list
  = load_documents load_with read_excel (pre ++ post)%list.
Proof.
  intros Hf. unfold load_documents. rewrite !flat_map_app. f_equal. simpl.
  destruct (starts_with_dot f); [reflexivity|]. simpl.
  destruct (loader_for (py_lower (splitext_ext f))) as [kind|] eqn:Hk; [|reflexivity].
  destruct (Hf kind eq_refl) as [e ->]. reflexivity.
Qed.

Lemma load_documents_skips_failing_witness :
  load_documents
    (fun _ f => if String.eqb f "broken.pdf" then Raise "EOF marker not found"
                else Ok [mk_document "text" [("source", f)]])
    (fun _ => Raise "no excel")
    ([("a.txt", true)] ++ ("broken.pdf", true) :: [("b.md", true)])%list
  = load_documents
      (fun _ f => if String.eqb f "broken.pdf" then Raise "EOF marker not found"
                  else Ok [mk_document "text" [("source", f)]])
      (fun _ => Raise "no excel")
      ([("a.txt", true)] ++ [("b.md", true)])%list.
Proof.
  apply load_documents_skips_failing.
  intros kind Hk. vm_compute in Hk. injection Hk as <-. exists "EOF marker not found". reflexivity.
Defined.


